(** * The ripple filter of [src/App.tsx]

    A shallow embedding of [createRippleEffect], the per-pixel edge filter of
    the application, together with the properties its specification states.

    Numbers.  A JavaScript number is an IEEE 754 binary64 value, which is
    what Rocq's primitive [float] is, so the wave value, the ripple offset
    and the cutoff comparison are computed with [PrimFloat]'s operations.
    The quantities that are whole numbers in every run (the loop counters
    [x] and [y], the canvas dimensions, array indices, and the intensity,
    which the only caller takes from a range input with bounds 5 and 50 and
    the default step 1) are kept in [Z]; a binary64 value represents every
    integer of magnitude below 2^53 exactly, so integer arithmetic on them is
    exact, and [number] injects them into [float] where the source mixes
    them with the frequency or a wave value.

    [Math.sin] and [Math.cos] are implementation-approximated in ECMAScript;
    they are parameters of the model.  [Math.abs] and [Math.min] are exact. *)

From Stdlib Require Import ZArith Lia Bool String.
From Stdlib Require Import Floats.PrimFloat Numbers.Cyclic.Int63.Uint63.
From stdpp Require Import base option list list_numbers.

#[local] Set Warnings "-inexact-float".
Local Open Scope string_scope.
Local Open Scope Z_scope.

(** ** Completions: a call returns a value or throws *)

Inductive completion (A : Type) : Type :=
| Normal (v : A)
| Throw (exn : string).
Arguments Normal {A} v.
Arguments Throw {A} exn.

#[global] Instance completion_bind : MBind completion :=
  fun A B k c =>
    match c with
    | Normal v => k v
    | Throw exn => Throw exn
    end.

(** ** The canvas objects the filter works on *)

Module ImageData.
(** [ImageData]: [data] is the [Uint8ClampedArray] of RGBA bytes, row
    major, four per pixel. *)
Record t : Type := Build { width : Z; height : Z; data : list Z }.
End ImageData.

(** The filter calls two methods of its [ctx] argument.  What
    [getImageData] returns depends on what was drawn on the canvas, so it is
    a field of the context. *)
Record CanvasRenderingContext2D : Type :=
  { getImageData : Z -> Z -> Z -> Z -> completion ImageData.t }.

(** [ctx.createImageData(sw, sh)] does not depend on the canvas: it throws
    an [IndexSizeError] when a dimension is zero and otherwise returns
    transparent black pixels, of the absolute magnitude of the arguments. *)
Definition createImageData (sw sh : Z) : completion ImageData.t :=
  if (sw =? 0) || (sh =? 0) then Throw "IndexSizeError"
  else Normal
         (ImageData.Build (Z.abs sw) (Z.abs sh)
            (replicate (Z.to_nat (Z.abs sw * Z.abs sh * 4)) 0)).

(** ** Typed-array access *)

(** [a[i]] on a typed array: [undefined] ([None]) out of range. *)
Definition load (a : list Z) (i : Z) : option Z :=
  if i <? 0 then None else a !! Z.to_nat i.

(** [a[i] = v] on a [Uint8ClampedArray]: ignored out of range; [undefined]
    is stored as 0.  The values stored here are bytes read from another
    clamped array, so no clamping is involved. *)
Definition store (a : list Z) (i : Z) (v : option Z) : list Z :=
  if i <? 0 then a else <[Z.to_nat i := default 0 v]> a.

(** ** Numbers *)

(** The binary64 value of a whole number (exact below 2^53). *)
Definition number (z : Z) : float :=
  if z <? 0 then PrimFloat.opp (PrimFloat.of_uint63 (Uint63.of_Z (- z)))
  else PrimFloat.of_uint63 (Uint63.of_Z z).

(** [Math.min(a, b, c, d)] on whole numbers. *)
Definition Math_min4 (a b c d : Z) : Z := Z.min (Z.min (Z.min a b) c) d.

(** Lines 41-45. *)
Definition distFromLeft (x : Z) : Z := x.
Definition distFromRight (width x : Z) : Z := width - x.
Definition distFromTop (y : Z) : Z := y.
Definition distFromBottom (height y : Z) : Z := height - y.

Definition minDistFromEdge (width height x y : Z) : Z :=
  Math_min4 (distFromLeft x) (distFromRight width x)
    (distFromTop y) (distFromBottom height y).

(** [Math.abs] clears the sign bit. *)
Definition Math_abs : float -> float := PrimFloat.abs.

(** Lines 85-93: the copy of one pixel, under the guard of line 88. *)
Definition copyPixel (data newData : list Z) (width x y : Z) : list Z :=
  let sourceIndex := (y * width + x) * 4 in
  let targetIndex := (y * width + x) * 4 in
  if (0 <=? sourceIndex) && (sourceIndex <? Z.of_nat (length data)) then
    let newData := store newData targetIndex (load data sourceIndex) in
    let newData := store newData (targetIndex + 1) (load data (sourceIndex + 1)) in
    let newData := store newData (targetIndex + 2) (load data (sourceIndex + 2)) in
    store newData (targetIndex + 3) (load data (sourceIndex + 3))
  else newData.

(** Lines 34-36: [for (let i = 0; i < newData.length; i += 4)], with
    [i = 4 * k]. *)
Definition clearAlpha (newData : list Z) : list Z :=
  foldl (fun newData k => store newData (4 * k + 3) (Some 0)) newData
    (seqZ 0 ((Z.of_nat (length newData) + 3) / 4)).

Section Filter.
(** The host's [Math.sin] and [Math.cos]. *)
Variables Math_sin Math_cos : float -> float.

(** Lines 54-73: the [switch (pattern)]. *)
Definition waveValue (pattern : string) (x y : Z) (frequency : float) : float :=
  let xy := number (x + y) in
  let x := number x in
  let y := number y in
  if String.eqb pattern "gothic" then
    (Math_sin (x * frequency) * Math_cos (y * frequency * 1.3)
     + Math_sin (y * frequency * 0.7) * Math_cos (x * frequency * 0.8))%float
  else if String.eqb pattern "organic" then
    (Math_sin (x * frequency * 1.2) + Math_cos (y * frequency * 0.9)
     + Math_sin (xy * frequency * 0.5))%float
  else if String.eqb pattern "flame" then
    (Math_sin (x * frequency) * Math_sin (y * frequency * 2)
     + Math_cos (x * frequency * 0.3) * Math_sin (y * frequency * 1.5))%float
  else if String.eqb pattern "thorns" then
    (Math_abs (Math_sin (x * frequency * 3)) * Math_cos (y * frequency)
     + Math_abs (Math_cos (y * frequency * 2)) * Math_sin (x * frequency))%float
  else
    (Math_sin (x * frequency) + Math_cos (y * frequency))%float.

(** Line 75. *)
Definition rippleOffset (pattern : string) (intensity : Z) (frequency : float)
    (width height x y : Z) : float :=
  (waveValue pattern x y frequency
   * number (intensity - minDistFromEdge width height x y) * 0.3)%float.

(** Line 78. *)
Definition cutoffThreshold (pattern : string) (intensity : Z) (frequency : float)
    (width height x y : Z) : float :=
  (number (minDistFromEdge width height x y)
   + rippleOffset pattern intensity frequency width height x y)%float.

(** Lines 47-82: the value of [shouldInclude] when line 84 tests it. *)
Definition shouldInclude (pattern : string) (intensity : Z) (frequency : float)
    (width height x y : Z) : bool :=
  if minDistFromEdge width height x y <? intensity * 2 then
    if (cutoffThreshold pattern intensity frequency width height x y
        <? number intensity * 0.8)%float
    then false
    else true
  else true.

(** Lines 40-94: the body of the inner loop. *)
Definition pixelStep (pattern : string) (intensity : Z) (frequency : float)
    (width height : Z) (data newData : list Z) (x y : Z) : list Z :=
  if shouldInclude pattern intensity frequency width height x y
  then copyPixel data newData width x y
  else newData.

(** Lines 38-96: the two nested loops. *)
Definition rippleLoops (pattern : string) (intensity : Z) (frequency : float)
    (width height : Z) (data newData : list Z) : list Z :=
  foldl
    (fun newData y =>
       foldl
         (fun newData x =>
            pixelStep pattern intensity frequency width height data newData x y)
         newData (seqZ 0 width))
    newData (seqZ 0 height).

(** Lines 20-99. *)
Definition createRippleEffect (ctx : CanvasRenderingContext2D)
    (width height intensity : Z) (frequency : float) (pattern : string)
    : completion ImageData.t :=
  imageData ← getImageData ctx 0 0 width height;
  let data := ImageData.data imageData in
  newImageData ← createImageData width height;
  let newData := ImageData.data newImageData in
  let newData := clearAlpha newData in
  let newData :=
    rippleLoops pattern intensity frequency width height data newData in
  Normal
    (ImageData.Build (ImageData.width newImageData)
       (ImageData.height newImageData) newData).
End Filter.

(** ** A host to run the model on

    [Math.sin] and [Math.cos] by their Maclaurin polynomials (degrees 17 and
    16, Horner form).  They agree with what ECMAScript fixes, sin(+0) = +0
    and cos(+0) = 1, and are accurate for the small arguments of the
    examples below. *)
Module Host.
Definition sin (t : float) : float :=
  let u := (t * t)%float in
  (t * (1 - u / 6 * (1 - u / 20 * (1 - u / 42 * (1 - u / 72 * (1 - u / 110
     * (1 - u / 156 * (1 - u / 210 * (1 - u / 272)))))))))%float.

Definition cos (t : float) : float :=
  let u := (t * t)%float in
  (1 - u / 2 * (1 - u / 12 * (1 - u / 30 * (1 - u / 56 * (1 - u / 90
     * (1 - u / 132 * (1 - u / 182 * (1 - u / 240))))))))%float.

(** A canvas on which the bytes [src] were drawn. *)
Definition canvas (src : list Z) : CanvasRenderingContext2D :=
  {| getImageData := fun _ _ sw sh =>
       if (sw =? 0) || (sh =? 0) then Throw "IndexSizeError"
       else Normal (ImageData.Build (Z.abs sw) (Z.abs sh) src) |}.

Definition run := createRippleEffect sin cos.
End Host.

(** What the caller guarantees (lines 110-115): the canvas has the size of
    the image, so the source array holds [width * height] pixels. *)
Definition holds (ctx : CanvasRenderingContext2D) (width height : Z)
    (src : list Z) : Prop :=
  getImageData ctx 0 0 width height
    = Normal (ImageData.Build width height src)
  /\ Z.of_nat (length src) = width * height * 4.

(** The four channels of the pixel at [(x, y)]. *)
Definition pixelAt (d : list Z) (width x y : Z)
    : option Z * option Z * option Z * option Z :=
  let i := (y * width + x) * 4 in
  (load d i, load d (i + 1), load d (i + 2), load d (i + 3)).

Definition transparent : option Z * option Z * option Z * option Z :=
  (Some 0, Some 0, Some 0, Some 0).

(** The coordinates in the order the loops of lines 38-39 visit them. *)
Definition scanOrder (width height : Z) : list (Z * Z) :=
  y ← seqZ 0 height; (fun x => (x, y)) <$> seqZ 0 width.

(** ** The specification's pattern table

    The closed set of pattern tags of the specification, the strings the
    pattern selector (lines 244-247) passes for them, and the formula the
    specification's table gives for each, written as the table has it. *)
Inductive Pattern : Type := Gothic | Organic | Flame | Thorns.

Definition tag (p : Pattern) : string :=
  match p with
  | Gothic => "gothic"
  | Organic => "organic"
  | Flame => "flame"
  | Thorns => "thorns"
  end.

Definition tableFormula (sin cos : float -> float) (p : Pattern) (x y : Z)
    (f : float) : float :=
  let xy := number (x + y) in
  let x := number x in
  let y := number y in
  match p with
  | Gothic =>
      (sin (x * f) * cos (y * f * 1.3) + sin (y * f * 0.7) * cos (x * f * 0.8))%float
  | Organic =>
      (sin (x * f * 1.2) + cos (y * f * 0.9) + sin (xy * f * 0.5))%float
  | Flame =>
      (sin (x * f) * sin (y * f * 2) + cos (x * f * 0.3) * sin (y * f * 1.5))%float
  | Thorns =>
      (PrimFloat.abs (sin (x * f * 3)) * cos (y * f)
       + PrimFloat.abs (cos (y * f * 2)) * sin (x * f))%float
  end.

(** ** Sample images *)

Definition white : list Z := [255; 255; 255; 255].

(** A fully opaque white image of [n] pixels. *)
Definition whites (n : nat) : list Z := mjoin (replicate n white).

(** The loop body of lines 40-94 run over the pixels [ps], in that order:
    what a traversal other than the row-major one of lines 38-39 computes. *)
Definition visit (Math_sin Math_cos : float -> float) (pattern : string)
    (intensity : Z) (frequency : float) (width height : Z)
    (data newData : list Z) (ps : list (Z * Z)) : list Z :=
  foldl
    (fun newData p =>
       pixelStep Math_sin Math_cos pattern intensity frequency width height
         data newData p.1 p.2)
    newData ps.

(** The bytes of a [Uint8ClampedArray]. *)
Definition bytes (a : list Z) : Prop := Forall (fun b => 0 <= b <= 255) a.

(** ** The caller: [processImage] (lines 101-134)

    [processImage] works on the hidden canvas element through the DOM.  The
    DOM operations it calls are an interface here: [Canvas] is the state of
    the canvas element (its size and bitmap), each operation that changes
    the canvas returns the new state, and [context canvas] is the 2D
    context reading that state. *)
Class DOM : Type := {
  Image : Type;
  Canvas : Type;
  image_width : Image -> Z;
  image_height : Image -> Z;
  (** [canvas.getContext('2d')] is not [null] *)
  has_2d : Canvas -> bool;
  canvas_width : Canvas -> Z;
  canvas_height : Canvas -> Z;
  (** [canvas.width = w] and [canvas.height = h] *)
  set_width : Canvas -> Z -> Canvas;
  set_height : Canvas -> Z -> Canvas;
  clearRect : Canvas -> Z -> Z -> Z -> Z -> Canvas;
  drawImage : Canvas -> Image -> Z -> Z -> Canvas;
  context : Canvas -> CanvasRenderingContext2D;
  putImageData : Canvas -> ImageData.t -> Z -> Z -> Canvas;
  toDataURL : Canvas -> string -> string }.

(** What the HTML standard guarantees of these operations, as far as
    [processImage] relies on it: assigning a dimension that is not
    negative sets it and leaves the other, drawing never resizes the canvas, and the whole rectangle of
    a canvas of positive size is read as four bytes per pixel. *)
Record DOMLaws (D : DOM) : Prop := {
  width_set : forall c w, 0 <= w -> canvas_width (set_width c w) = w;
  width_height : forall c w, canvas_height (set_width c w) = canvas_height c;
  height_set : forall c h, 0 <= h -> canvas_height (set_height c h) = h;
  height_width : forall c h, canvas_width (set_height c h) = canvas_width c;
  clearRect_size : forall c x y w h,
    canvas_width (clearRect c x y w h) = canvas_width c
    /\ canvas_height (clearRect c x y w h) = canvas_height c;
  drawImage_size : forall c i x y,
    canvas_width (drawImage c i x y) = canvas_width c
    /\ canvas_height (drawImage c i x y) = canvas_height c;
  putImageData_size : forall c d x y,
    canvas_width (putImageData c d x y) = canvas_width c
    /\ canvas_height (putImageData c d x y) = canvas_height c;
  getImageData_whole : forall c,
    0 < canvas_width c -> 0 < canvas_height c ->
    exists d, holds (context c) (canvas_width c) (canvas_height c) d }.

Module App.
Section App.
Context {D : DOM}.
Variables Math_sin Math_cos : float -> float.

(** The state of [App] that [processImage] reads or sets (lines 11-16). *)
Record State : Type := {
  image : option Image;
  processedImage : option string;
  rippleIntensity : Z;
  rippleFrequency : float;
  wavePattern : string;
  isProcessing : bool }.

Definition setProcessedImage (v : option string) (s : State) : State :=
  {| image := image s; processedImage := v;
     rippleIntensity := rippleIntensity s;
     rippleFrequency := rippleFrequency s;
     wavePattern := wavePattern s; isProcessing := isProcessing s |}.

Definition setIsProcessing (v : bool) (s : State) : State :=
  {| image := image s; processedImage := processedImage s;
     rippleIntensity := rippleIntensity s;
     rippleFrequency := rippleFrequency s;
     wavePattern := wavePattern s; isProcessing := v |}.

(** The state together with [canvasRef.current]. *)
Record World : Type := { state : State; canvasRef : option Canvas }.

(** Lines 101-134.  The result is the world the call leaves and how the
    call completes; an exception of the filter leaves through
    [processImage]. *)
Definition processImage (w : World) : World * completion unit :=
  match image (state w), canvasRef w with
  | Some image, Some canvas =>
      let st := setIsProcessing true (state w) in
      if has_2d canvas then
        let canvas := set_width canvas (image_width image) in
        let canvas := set_height canvas (image_height image) in
        let canvas :=
          clearRect canvas 0 0 (canvas_width canvas) (canvas_height canvas) in
        let canvas := drawImage canvas image 0 0 in
        match
          createRippleEffect Math_sin Math_cos (context canvas)
            (canvas_width canvas) (canvas_height canvas)
            (rippleIntensity st) (rippleFrequency st) (wavePattern st)
        with
        | Normal processedImageData =>
            let canvas :=
              clearRect canvas 0 0 (canvas_width canvas)
                (canvas_height canvas) in
            let canvas := putImageData canvas processedImageData 0 0 in
            let st :=
              setProcessedImage (Some (toDataURL canvas "image/png")) st in
            let st := setIsProcessing false st in
            ({| state := st; canvasRef := Some canvas |}, Normal tt)
        | Throw exn => ({| state := st; canvasRef := Some canvas |}, Throw exn)
        end
      else ({| state := st; canvasRef := Some canvas |}, Normal tt)
  | _, _ => (w, Normal tt)
  end.

(** The canvas as [processImage] has it when it calls the filter
    (lines 110-115). *)
Definition drawn (canvas : Canvas) (image : Image) : Canvas :=
  let canvas := set_width canvas (image_width image) in
  let canvas := set_height canvas (image_height image) in
  let canvas :=
    clearRect canvas 0 0 (canvas_width canvas) (canvas_height canvas) in
  drawImage canvas image 0 0.
End App.
End App.

(** A small DOM to run [processImage] on.  An image and a canvas are a
    width, a height and RGBA bytes; of the rectangles only the whole canvas
    is supported, which is all [processImage] uses. *)
Module PlainDOM.
Record canvas : Type :=
  { cw : Z; ch : Z; bitmap : list Z; with_2d : bool }.

Definition whole (c : canvas) (x y w h : Z) : bool :=
  (x =? 0) && (y =? 0) && (w =? cw c) && (h =? ch c).

#[global] Instance dom : DOM := {|
  Image := ImageData.t;
  Canvas := canvas;
  image_width := ImageData.width;
  image_height := ImageData.height;
  has_2d := with_2d;
  canvas_width := cw;
  canvas_height := ch;
  set_width c w :=
    {| cw := w; ch := ch c;
       bitmap := replicate (Z.to_nat (w * ch c * 4)) 0;
       with_2d := with_2d c |};
  set_height c h :=
    {| cw := cw c; ch := h;
       bitmap := replicate (Z.to_nat (cw c * h * 4)) 0;
       with_2d := with_2d c |};
  clearRect c x y w h :=
    if whole c x y w h then
      {| cw := cw c; ch := ch c;
         bitmap := replicate (Z.to_nat (cw c * ch c * 4)) 0;
         with_2d := with_2d c |}
    else c;
  drawImage c i x y :=
    if whole c x y (ImageData.width i) (ImageData.height i) then
      {| cw := cw c; ch := ch c; bitmap := ImageData.data i;
         with_2d := with_2d c |}
    else c;
  context c :=
    {| getImageData := fun _ _ sw sh =>
         if (sw =? 0) || (sh =? 0) then Throw "IndexSizeError"
         else Normal
                (ImageData.Build (Z.abs sw) (Z.abs sh)
                   (resize (Z.to_nat (Z.abs sw * Z.abs sh * 4)) 0
                      (bitmap c))) |};
  putImageData c d x y :=
    if whole c x y (ImageData.width d) (ImageData.height d) then
      {| cw := cw c; ch := ch c; bitmap := ImageData.data d;
         with_2d := with_2d c |}
    else c;
  toDataURL c type := String.append "data:" type |}.

(** A mounted canvas of the default size, 300 x 150. *)
Definition blank : canvas :=
  {| cw := 300; ch := 150;
     bitmap := replicate (Z.to_nat (300 * 150 * 4)) 0; with_2d := true |}.

(** The state of [App] after the image [i] was loaded. *)
Definition loaded (i : ImageData.t) : App.World :=
  {| App.state :=
       {| App.image := Some i; App.processedImage := None;
          App.rippleIntensity := 20; App.rippleFrequency := 0.02;
          App.wavePattern := "gothic"; App.isProcessing := false |};
     App.canvasRef := Some blank |}.
End PlainDOM.

(** * Proofs *)

(** ** Typed-array reads after writes *)

Lemma length_store (a : list Z) (i : Z) (v : option Z) :
  length (store a i v) = length a.
Proof. unfold store. destruct (i <? 0); [done | apply length_insert]. Qed.

Lemma load_store_eq (a : list Z) (i : Z) (v : option Z) :
  0 <= i < Z.of_nat (length a) ->
  load (store a i v) i = Some (default 0 v).
Proof.
  intros Hi. unfold load, store.
  destruct (i <? 0) eqn:E; [lia |].
  apply list_lookup_insert_eq. lia.
Qed.

Lemma load_store_ne (a : list Z) (i j : Z) (v : option Z) :
  i <> j -> load (store a i v) j = load a j.
Proof.
  intros Hij. unfold load, store.
  destruct (j <? 0) eqn:Ej; [done |].
  destruct (i <? 0) eqn:Ei; [done |].
  apply list_lookup_insert_ne. lia.
Qed.

Lemma load_Some (a : list Z) (i : Z) :
  0 <= i < Z.of_nat (length a) -> exists v, load a i = Some v.
Proof.
  intros Hi. unfold load. destruct (i <? 0) eqn:E; [lia |].
  apply lookup_lt_is_Some_2. lia.
Qed.

Lemma load_replicate (n : nat) (i : Z) :
  0 <= i < Z.of_nat n -> load (replicate n 0) i = Some 0.
Proof.
  intros Hi. unfold load. destruct (i <? 0) eqn:E; [lia |].
  apply lookup_replicate_2. lia.
Qed.

(** Two arrays with the same reads are the same array. *)
Lemma load_ext (a b : list Z) :
  length a = length b ->
  (forall i, 0 <= i < Z.of_nat (length a) -> load a i = load b i) ->
  a = b.
Proof.
  intros Hlen Hload. apply list_eq. intros n.
  destruct (decide (n < length a)%nat) as [Hn | Hn].
  - specialize (Hload (Z.of_nat n) ltac:(lia)). unfold load in Hload.
    destruct (Z.of_nat n <? 0) eqn:E; [lia |].
    by rewrite Nat2Z.id in Hload.
  - rewrite !lookup_ge_None_2; [done | lia | lia].
Qed.

(** ** One pixel *)

Lemma length_copyPixel (data newData : list Z) (width x y : Z) :
  length (copyPixel data newData width x y) = length newData.
Proof.
  unfold copyPixel. case_match; [| done]. by rewrite !length_store.
Qed.

Lemma load_copyPixel_out (data newData : list Z) (width x y j : Z) :
  ~ ((y * width + x) * 4 <= j < (y * width + x) * 4 + 4) ->
  load (copyPixel data newData width x y) j = load newData j.
Proof.
  intros Hj. unfold copyPixel. case_match; [| done].
  rewrite !load_store_ne by lia. done.
Qed.

Lemma load_copyPixel_in (data newData : list Z) (width x y j : Z) :
  0 <= (y * width + x) * 4 ->
  (y * width + x) * 4 + 4 <= Z.of_nat (length data) ->
  length newData = length data ->
  (y * width + x) * 4 <= j < (y * width + x) * 4 + 4 ->
  load (copyPixel data newData width x y) j = load data j.
Proof.
  intros H0 Hlen Hnew Hj. unfold copyPixel.
  set (i := (y * width + x) * 4) in *.
  assert (Hg : (0 <=? i) && (i <? Z.of_nat (length data)) = true).
  { apply andb_true_iff. split; [apply Z.leb_le | apply Z.ltb_lt]; lia. }
  rewrite Hg.
  assert (Hd : forall k, i <= k < i + 4 ->
                 Some (default 0 (load data k)) = load data k).
  { intros k Hk. destruct (load_Some data k) as [v ->]; [lia | done]. }
  assert (Hc : j = i \/ j = i + 1 \/ j = i + 2 \/ j = i + 3) by lia.
  destruct Hc as [-> | [-> | [-> | ->]]].
  - rewrite !load_store_ne by lia.
    rewrite load_store_eq by lia. apply Hd. lia.
  - rewrite !load_store_ne by lia.
    rewrite load_store_eq by (rewrite !length_store; lia). apply Hd. lia.
  - rewrite !load_store_ne by lia.
    rewrite load_store_eq by (rewrite !length_store; lia). apply Hd. lia.
  - rewrite load_store_eq by (rewrite !length_store; lia). apply Hd. lia.
Qed.

(** ** The two loops as one scan *)

Lemma foldl_nested {S : Type} (f : S -> Z -> Z -> S) (xs ys : list Z) (s : S) :
  foldl (fun s y => foldl (fun s x => f s x y) s xs) s ys
  = foldl (fun s p => f s p.1 p.2) s (y ← ys; (fun x => (x, y)) <$> xs).
Proof.
  revert s. induction ys as [| y ys IH]; intros s; [done |].
  rewrite bind_cons, foldl_app, foldl_fmap. simpl. apply IH.
Qed.

Lemma elem_of_scanOrder (width height x y : Z) :
  (x, y) ∈ scanOrder width height <-> 0 <= x < width /\ 0 <= y < height.
Proof.
  unfold scanOrder. rewrite list_elem_of_bind. split.
  - intros (y' & Hx & Hy). apply elem_of_seqZ in Hy.
    apply list_elem_of_fmap in Hx as (x' & [= -> ->] & Hx).
    apply elem_of_seqZ in Hx. lia.
  - intros [Hx Hy]. exists y. split.
    + apply list_elem_of_fmap. exists x. split; [done |].
      apply elem_of_seqZ. lia.
    + apply elem_of_seqZ. lia.
Qed.

(** Row-major indexing: a pixel inside the image lies inside the array, and
    two pixels inside the image do not share a byte. *)
Lemma offset_bounds (width height x y : Z) :
  0 <= x < width -> 0 <= y < height ->
  0 <= (y * width + x) * 4 /\ (y * width + x) * 4 + 4 <= width * height * 4.
Proof. intros Hx Hy. nia. Qed.

Lemma offset_inj (width x y x' y' j : Z) :
  0 <= x < width -> 0 <= x' < width ->
  (y * width + x) * 4 <= j < (y * width + x) * 4 + 4 ->
  (y' * width + x') * 4 <= j < (y' * width + x') * 4 + 4 ->
  x = x' /\ y = y'.
Proof.
  intros Hx Hx' Hj Hj'.
  assert (E : y * width + x = y' * width + x') by lia.
  assert (y = y') by nia. subst y'. lia.
Qed.

Section Scan.
Variables Math_sin Math_cos : float -> float.
Variables (pattern : string) (intensity : Z) (frequency : float).
Variables (width height : Z) (data : list Z).
Hypothesis data_length : Z.of_nat (length data) = width * height * 4.

#[local] Abbreviation keep := (shouldInclude Math_sin Math_cos pattern intensity
                    frequency width height).
#[local] Abbreviation step := (fun newData (p : Z * Z) =>
  pixelStep Math_sin Math_cos pattern intensity frequency width height
    data newData p.1 p.2).
#[local] Abbreviation inside := (fun p : Z * Z =>
  0 <= p.1 < width /\ 0 <= p.2 < height).
#[local] Abbreviation covers := (fun (p : Z * Z) (j : Z) =>
  (p.2 * width + p.1) * 4 <= j < (p.2 * width + p.1) * 4 + 4).

Lemma rippleLoops_scan (newData : list Z) :
  rippleLoops Math_sin Math_cos pattern intensity frequency width height
    data newData
  = foldl step newData (scanOrder width height).
Proof. unfold rippleLoops, scanOrder. apply (foldl_nested (fun s x y =>
  pixelStep Math_sin Math_cos pattern intensity frequency width height
    data s x y)). Qed.

Lemma length_scan (ps : list (Z * Z)) (newData : list Z) :
  length (foldl step newData ps) = length newData.
Proof.
  revert newData. induction ps as [| p ps IH]; intros newData; [done |].
  simpl. rewrite IH. unfold pixelStep.
  destruct (keep p.1 p.2); [apply length_copyPixel | done].
Qed.

(** A byte that no kept pixel of the scan covers is left as it was. *)
Lemma scan_untouched (ps : list (Z * Z)) (newData : list Z) (j : Z) :
  Forall (fun p => keep p.1 p.2 = true -> ~ covers p j) ps ->
  load (foldl step newData ps) j = load newData j.
Proof.
  revert newData. induction ps as [| p ps IH]; intros newData Hps; [done |].
  apply Forall_cons in Hps as [Hp Hps]. simpl. rewrite IH by done.
  unfold pixelStep. destruct (keep p.1 p.2); [| done].
  apply load_copyPixel_out. by apply Hp.
Qed.

(** A byte that already holds the source byte keeps holding it. *)
Lemma scan_settled (ps : list (Z * Z)) (newData : list Z) (j : Z) :
  Forall inside ps ->
  length newData = length data ->
  load newData j = load data j ->
  load (foldl step newData ps) j = load data j.
Proof.
  revert newData. induction ps as [| p ps IH]; intros newData Hps Hlen Hj;
    [done |].
  apply Forall_cons in Hps as [[Hx Hy] Hps]. simpl.
  apply IH; [done | |].
  - unfold pixelStep. destruct (keep p.1 p.2); [| done].
    by rewrite length_copyPixel.
  - unfold pixelStep. destruct (keep p.1 p.2); [| done].
    destruct (offset_bounds width height p.1 p.2 Hx Hy) as [Hlo Hhi].
    destruct (decide (covers p j)) as [Hc | Hc].
    + apply load_copyPixel_in; [done | lia | done | done].
    + by rewrite load_copyPixel_out.
Qed.

(** A byte of a kept pixel of the scan holds the source byte. *)
Lemma scan_copied (ps : list (Z * Z)) (newData : list Z) (p : Z * Z) (j : Z) :
  Forall inside ps ->
  length newData = length data ->
  p ∈ ps -> keep p.1 p.2 = true -> covers p j ->
  load (foldl step newData ps) j = load data j.
Proof.
  revert newData. induction ps as [| q ps IH]; intros newData Hps Hlen Hin Hk Hc.
  - by apply elem_of_nil in Hin.
  - pose proof Hps as Hall.
    apply Forall_cons in Hps as [[Hx Hy] Hps]. simpl.
    apply elem_of_cons in Hin as [<- | Hin].
    + apply scan_settled; [done | |].
      * unfold pixelStep. rewrite Hk. by rewrite length_copyPixel.
      * unfold pixelStep. rewrite Hk.
        destruct (offset_bounds width height p.1 p.2 Hx Hy) as [Hlo Hhi].
        apply load_copyPixel_in; [done | lia | done | done].
    + apply IH; [done | | done | done | done].
      unfold pixelStep. destruct (keep q.1 q.2); [| done].
      by rewrite length_copyPixel.
Qed.

(** What the loops leave in the bytes of the pixel at [(x, y)]. *)
Lemma rippleLoops_pixel (newData : list Z) (x y j : Z) :
  length newData = length data ->
  0 <= x < width -> 0 <= y < height ->
  (y * width + x) * 4 <= j < (y * width + x) * 4 + 4 ->
  load (rippleLoops Math_sin Math_cos pattern intensity frequency width
          height data newData) j
  = if keep x y then load data j else load newData j.
Proof.
  intros Hlen Hx Hy Hj. rewrite rippleLoops_scan.
  assert (Hall : Forall inside (scanOrder width height)).
  { apply Forall_forall. intros [x' y'] Hin.
    by apply elem_of_scanOrder in Hin. }
  destruct (keep x y) eqn:Hk.
  - apply (scan_copied _ _ (x, y)); [done | done | | done | done].
    apply elem_of_scanOrder. done.
  - apply scan_untouched. apply Forall_forall. intros [x' y'] Hin Hk' Hc.
    apply elem_of_scanOrder in Hin as [Hx' Hy']. simpl in *.
    destruct (offset_inj width x y x' y' j) as [-> ->]; try done.
    congruence.
Qed.

Lemma length_rippleLoops (newData : list Z) :
  length (rippleLoops Math_sin Math_cos pattern intensity frequency width
            height data newData) = length newData.
Proof. rewrite rippleLoops_scan. apply length_scan. Qed.
End Scan.

(** ** The whole filter *)

(** The clearing loop of lines 34-36 writes 0 over bytes that
    [createImageData] already set to 0. *)
Lemma clearAlpha_replicate (n : nat) :
  clearAlpha (replicate n 0) = replicate n 0.
Proof.
  unfold clearAlpha. generalize (seqZ 0 ((Z.of_nat (length (replicate n 0)) + 3) / 4)).
  intros ks. induction ks as [| k ks IH]; [done |].
  simpl. unfold store at 2. destruct (4 * k + 3 <? 0); [done |].
  simpl. by rewrite insert_replicate.
Qed.

Section Effect.
Variables Math_sin Math_cos : float -> float.
Variables (ctx : CanvasRenderingContext2D) (width height intensity : Z).
Variables (frequency : float) (pattern : string) (src : list Z).
Hypothesis width_pos : 0 < width.
Hypothesis height_pos : 0 < height.
Hypothesis canvas : holds ctx width height src.

#[local] Abbreviation keep :=
  (shouldInclude Math_sin Math_cos pattern intensity frequency width height).

(** On a canvas of the image's size the filter returns, and the array it
    returns is the one the loops leave. *)
Lemma createRippleEffect_returns :
  createRippleEffect Math_sin Math_cos ctx width height intensity frequency
    pattern
  = Normal
      (ImageData.Build width height
         (rippleLoops Math_sin Math_cos pattern intensity frequency width
            height src (replicate (Z.to_nat (width * height * 4)) 0))).
Proof.
  destruct canvas as [Hget Hlen].
  unfold createRippleEffect. rewrite Hget. simpl.
  unfold createImageData.
  destruct (width =? 0) eqn:Ew; [lia |].
  destruct (height =? 0) eqn:Eh; [lia |].
  simpl. rewrite clearAlpha_replicate.
  rewrite !Z.abs_eq by lia. done.
Qed.

Lemma createRippleEffect_pixel (out : ImageData.t) (x y : Z) :
  createRippleEffect Math_sin Math_cos ctx width height intensity frequency
    pattern = Normal out ->
  0 <= x < width -> 0 <= y < height ->
  pixelAt (ImageData.data out) width x y
  = if keep x y then pixelAt src width x y else transparent.
Proof.
  rewrite createRippleEffect_returns. intros [= <-] Hx Hy. simpl.
  destruct canvas as [_ Hlen].
  destruct (offset_bounds width height x y Hx Hy) as [Hlo Hhi].
  assert (Hnew : length (replicate (Z.to_nat (width * height * 4)) 0)
                 = length src) by (rewrite length_replicate; lia).
  unfold pixelAt, transparent.
  rewrite !(rippleLoops_pixel _ _ _ _ _ _ _ _ Hlen _ x y) by (done || lia).
  destruct (keep x y); [done |].
  rewrite !load_replicate by lia. done.
Qed.

Lemma createRippleEffect_length (out : ImageData.t) :
  createRippleEffect Math_sin Math_cos ctx width height intensity frequency
    pattern = Normal out ->
  ImageData.width out = width /\ ImageData.height out = height
  /\ Z.of_nat (length (ImageData.data out)) = width * height * 4.
Proof.
  rewrite createRippleEffect_returns. intros [= <-]. simpl.
  rewrite length_rippleLoops, length_replicate. lia.
Qed.
End Effect.

(** ** Geometry of the edge distance *)

Lemma minDistFromEdge_nonneg (width height x y : Z) :
  0 <= x < width -> 0 <= y < height -> 0 <= minDistFromEdge width height x y.
Proof.
  unfold minDistFromEdge, Math_min4, distFromLeft, distFromRight, distFromTop,
    distFromBottom. lia.
Qed.

(** Every byte of the array belongs to a pixel inside the image. *)
Lemma offset_surj (width height j : Z) :
  0 < width -> 0 <= j < width * height * 4 ->
  exists x y, 0 <= x < width /\ 0 <= y < height
    /\ (y * width + x) * 4 <= j < (y * width + x) * 4 + 4.
Proof.
  intros Hw Hj. exists ((j / 4) mod width), ((j / 4) / width).
  pose proof (Z.div_mod j 4 ltac:(lia)) as E4.
  pose proof (Z.mod_pos_bound j 4 ltac:(lia)) as B4.
  pose proof (Z.div_mod (j / 4) width ltac:(lia)) as Ew.
  pose proof (Z.mod_pos_bound (j / 4) width ltac:(lia)) as Bw.
  assert (Hq : 0 <= j / 4 < width * height) by lia.
  assert (Hy : 0 <= j / 4 / width < height).
  { split; [apply Z.div_pos; lia |]. apply Z.div_lt_upper_bound; lia. }
  repeat split; lia.
Qed.

(** ** Scenarios of the specification, run on [Host] *)

(** Scenario A: on the 10 x 10 white image with intensity 3 and frequency
    0.02 the corner pixel (0, 0) is discarded, and (5, 5), at distance
    5 < 6, is decided by the border formula. *)
Example scenario_A :
  (exists out,
     Host.run (Host.canvas (whites 100)) 10 10 3 0.02 "gothic" = Normal out
     /\ pixelAt (ImageData.data out) 10 0 0 = transparent)
  /\ minDistFromEdge 10 10 5 5 = 5
  /\ (minDistFromEdge 10 10 5 5 <? 3 * 2) = true.
Proof. split; [eexists; split; [vm_compute |]|]; vm_compute; done. Qed.

(** Scenario B: on a 4 x 4 image with intensity 10 every pixel is in the
    border zone. *)
Example scenario_B (x y : Z) :
  0 <= x < 4 -> 0 <= y < 4 -> minDistFromEdge 4 4 x y < 2 * 10.
Proof.
  unfold minDistFromEdge, Math_min4, distFromLeft, distFromRight, distFromTop,
    distFromBottom. lia.
Qed.

(** Scenario C: the single pixel of a 1 x 1 image is at distance 0. *)
Example scenario_C : minDistFromEdge 1 1 0 0 = 0.
Proof. reflexivity. Qed.

(** In the border zone the factor [intensity - minDistFromEdge] can be
    negative. *)
Example border_zone_negative_factor :
  minDistFromEdge 10 10 4 4 < 2 * 3 /\ 3 - minDistFromEdge 10 10 4 4 < 0.
Proof. vm_compute. done. Qed.

(** * The claims

    Each claim is followed by its instance on a 10 x 10 opaque white image
    run on [Host]. *)

(** C1.  In the border zone the pixel at [(x, y)] is discarded exactly when
    [minDistFromEdge + waveValue * (intensity - minDistFromEdge) * 0.3
     < intensity * 0.8]: the output pixel is then transparent black, and
    otherwise it is the source pixel, alpha included.  Nothing is asked of
    the sign of [intensity - minDistFromEdge]. *)
Theorem C1_border_decision (Math_sin Math_cos : float -> float)
    (ctx : CanvasRenderingContext2D) (width height intensity : Z)
    (frequency : float) (pattern : string) (src : list Z) (x y : Z) :
  0 < width -> 0 < height -> holds ctx width height src ->
  0 <= x < width -> 0 <= y < height ->
  minDistFromEdge width height x y < 2 * intensity ->
  let d := minDistFromEdge width height x y in
  let w := waveValue Math_sin Math_cos pattern x y frequency in
  let discard :=
    (number d + w * number (intensity - d) * 0.3 <? number intensity * 0.8)%float in
  exists out,
    createRippleEffect Math_sin Math_cos ctx width height intensity frequency
      pattern = Normal out
    /\ shouldInclude Math_sin Math_cos pattern intensity frequency width
         height x y = negb discard
    /\ pixelAt (ImageData.data out) width x y
       = if discard then transparent else pixelAt src width x y.
Proof.
  intros Hw Hh Hc Hx Hy Hzone d w discard.
  eexists. split; [by apply createRippleEffect_returns |].
  assert (Hk : shouldInclude Math_sin Math_cos pattern intensity frequency
                 width height x y = negb discard).
  { unfold shouldInclude, cutoffThreshold, rippleOffset.
    fold d. fold w. fold discard.
    assert (E : (d <? intensity * 2) = true) by (apply Z.ltb_lt; lia).
    rewrite E. by destruct discard. }
  split; [done |].
  rewrite (createRippleEffect_pixel Math_sin Math_cos ctx width height
             intensity frequency pattern src Hw Hh Hc _ x y)
    by first [by apply createRippleEffect_returns | done].
  rewrite Hk. by destruct discard.
Qed.

(** At (4, 4) the distance 4 exceeds the intensity 3, so the factor
    [intensity - minDistFromEdge] is -1; the pixel is in the border zone. *)
Lemma C1_border_decision_witness :
  let d := minDistFromEdge 10 10 4 4 in
  let w := waveValue Host.sin Host.cos "gothic" 4 4 0.02 in
  let discard :=
    (number d + w * number (3 - d) * 0.3 <? number 3 * 0.8)%float in
  exists out,
    createRippleEffect Host.sin Host.cos (Host.canvas (whites 100)) 10 10 3
      0.02 "gothic" = Normal out
    /\ shouldInclude Host.sin Host.cos "gothic" 3 0.02 10 10 4 4
       = negb discard
    /\ pixelAt (ImageData.data out) 10 4 4
       = if discard then transparent else pixelAt (whites 100) 10 4 4.
Proof.
  apply (C1_border_decision Host.sin Host.cos (Host.canvas (whites 100))
           10 10 3 0.02 "gothic" (whites 100) 4 4);
    [lia | lia | split; reflexivity | lia | lia | vm_compute; reflexivity].
Defined.

(** C2.  For each of the four pattern tags the wave value the filter
    computes is the formula of the specification's table, for every pixel
    and frequency and whatever [Math.sin] and [Math.cos] the host has. *)
Theorem C2_wave_table (Math_sin Math_cos : float -> float) (p : Pattern)
    (x y : Z) (frequency : float) :
  waveValue Math_sin Math_cos (tag p) x y frequency
  = tableFormula Math_sin Math_cos p x y frequency.
Proof. destruct p; reflexivity. Qed.

(** C3.  A pixel at distance at least [2 * intensity] from every edge comes
    out as it went in, all four channels, for every pattern and frequency. *)
Theorem C3_interior_unchanged (Math_sin Math_cos : float -> float)
    (ctx : CanvasRenderingContext2D) (width height intensity : Z)
    (frequency : float) (pattern : string) (src : list Z) (x y : Z) :
  0 < width -> 0 < height -> holds ctx width height src ->
  0 <= x < width -> 0 <= y < height ->
  2 * intensity <= minDistFromEdge width height x y ->
  exists out,
    createRippleEffect Math_sin Math_cos ctx width height intensity frequency
      pattern = Normal out
    /\ pixelAt (ImageData.data out) width x y = pixelAt src width x y.
Proof.
  intros Hw Hh Hc Hx Hy Hin.
  eexists. split; [by apply createRippleEffect_returns |].
  rewrite (createRippleEffect_pixel Math_sin Math_cos ctx width height
             intensity frequency pattern src Hw Hh Hc _ x y)
    by first [by apply createRippleEffect_returns | done].
  unfold shouldInclude.
  assert (E : (minDistFromEdge width height x y <? intensity * 2) = false)
    by (apply Z.ltb_ge; lia).
  by rewrite E.
Qed.

Lemma C3_interior_unchanged_witness :
  exists out,
    createRippleEffect Host.sin Host.cos (Host.canvas (whites 100)) 10 10 2
      0.02 "flame" = Normal out
    /\ pixelAt (ImageData.data out) 10 5 5 = pixelAt (whites 100) 10 5 5.
Proof.
  apply (C3_interior_unchanged Host.sin Host.cos (Host.canvas (whites 100))
           10 10 2 0.02 "flame" (whites 100) 5 5);
    [lia | lia | split; reflexivity | lia | lia | vm_compute; discriminate].
Defined.

(** C4.  Inside the image the edge distance is
    [min(x, width - x, y, height - y)].  It is asymmetric: the right and
    bottom distances of the last column and row are 1, never 0, so only
    pixels of the first column or row are at distance 0. *)
Theorem C4_edge_distance (width height x y : Z) :
  0 <= x < width -> 0 <= y < height ->
  minDistFromEdge width height x y
    = Z.min x (Z.min (width - x) (Z.min y (height - y)))
  /\ distFromRight width (width - 1) = 1
  /\ distFromBottom height (height - 1) = 1
  /\ 1 <= distFromRight width x
  /\ 1 <= distFromBottom height y
  /\ (minDistFromEdge width height x y = 0 <-> x = 0 \/ y = 0).
Proof.
  intros Hx Hy.
  unfold minDistFromEdge, Math_min4, distFromLeft, distFromRight, distFromTop,
    distFromBottom.
  repeat split; lia.
Qed.

(** At the bottom-right pixel of a 10 x 10 image the distance is 1. *)
Lemma C4_edge_distance_witness :
  minDistFromEdge 10 10 9 9 = Z.min 9 (Z.min (10 - 9) (Z.min 9 (10 - 9)))
  /\ distFromRight 10 (10 - 1) = 1
  /\ distFromBottom 10 (10 - 1) = 1
  /\ 1 <= distFromRight 10 9
  /\ 1 <= distFromBottom 10 9
  /\ (minDistFromEdge 10 10 9 9 = 0 <-> 9 = 0 \/ 9 = 0).
Proof. apply (C4_edge_distance 10 10 9 9); lia. Defined.

(** C5.  Every output pixel is the source pixel at the same coordinates,
    channel for channel, or transparent black; so its alpha is the source
    alpha or 0. *)
Theorem C5_copy_or_transparent (Math_sin Math_cos : float -> float)
    (ctx : CanvasRenderingContext2D) (width height intensity : Z)
    (frequency : float) (pattern : string) (src : list Z) :
  0 < width -> 0 < height -> holds ctx width height src ->
  exists out,
    createRippleEffect Math_sin Math_cos ctx width height intensity frequency
      pattern = Normal out
    /\ forall x y, 0 <= x < width -> 0 <= y < height ->
       (pixelAt (ImageData.data out) width x y = pixelAt src width x y
        \/ pixelAt (ImageData.data out) width x y = transparent)
       /\ (load (ImageData.data out) ((y * width + x) * 4 + 3)
             = load src ((y * width + x) * 4 + 3)
           \/ load (ImageData.data out) ((y * width + x) * 4 + 3) = Some 0).
Proof.
  intros Hw Hh Hc.
  eexists. split; [by apply createRippleEffect_returns |].
  intros x y Hx Hy.
  pose proof (createRippleEffect_pixel Math_sin Math_cos ctx width height
                intensity frequency pattern src Hw Hh Hc _ x y
                (createRippleEffect_returns Math_sin Math_cos ctx width height
                   intensity frequency pattern src Hw Hh Hc) Hx Hy) as Hp.
  destruct (shouldInclude Math_sin Math_cos pattern intensity frequency width
              height x y).
  - split; [by left |]. left. unfold pixelAt in Hp. congruence.
  - split; [by right |]. right. unfold pixelAt, transparent in Hp. congruence.
Qed.

Lemma C5_copy_or_transparent_witness :
  exists out,
    createRippleEffect Host.sin Host.cos (Host.canvas (whites 100)) 10 10 3
      0.02 "gothic" = Normal out
    /\ forall x y, 0 <= x < 10 -> 0 <= y < 10 ->
       (pixelAt (ImageData.data out) 10 x y = pixelAt (whites 100) 10 x y
        \/ pixelAt (ImageData.data out) 10 x y = transparent)
       /\ (load (ImageData.data out) ((y * 10 + x) * 4 + 3)
             = load (whites 100) ((y * 10 + x) * 4 + 3)
           \/ load (ImageData.data out) ((y * 10 + x) * 4 + 3) = Some 0).
Proof.
  apply (C5_copy_or_transparent Host.sin Host.cos (Host.canvas (whites 100))
           10 10 3 0.02 "gothic" (whites 100));
    [lia | lia | split; reflexivity].
Defined.

(** C6, as the code has it.  The filter checks none of its arguments.  The
    only errors are the canvas's: what [getImageData] throws, and the
    [IndexSizeError] of [createImageData] for a zero width or height.  For
    every other width and height the filter returns an image, of the
    magnitude of the width and height, whatever the intensity, the
    frequency and the pattern string are. *)
Theorem C6_only_canvas_errors (Math_sin Math_cos : float -> float)
    (ctx : CanvasRenderingContext2D) (width height intensity : Z)
    (frequency : float) (pattern : string) :
  match getImageData ctx 0 0 width height with
  | Throw exn =>
      createRippleEffect Math_sin Math_cos ctx width height intensity
        frequency pattern = Throw exn
  | Normal _ =>
      if (width =? 0) || (height =? 0) then
        createRippleEffect Math_sin Math_cos ctx width height intensity
          frequency pattern = Throw "IndexSizeError"
      else
        exists out,
          createRippleEffect Math_sin Math_cos ctx width height intensity
            frequency pattern = Normal out
          /\ ImageData.width out = Z.abs width
          /\ ImageData.height out = Z.abs height
  end.
Proof.
  unfold createRippleEffect.
  destruct (getImageData ctx 0 0 width height) as [imageData | exn]; [| done].
  simpl. unfold createImageData.
  destruct ((width =? 0) || (height =? 0)); [done |].
  simpl. eexists. split; [done |]. done.
Qed.

(** C6 fails as stated: with frequency 0, with intensity 0, with a pattern
    string outside the four tags, and with a negative width, the filter
    returns an image and throws nothing.  The image has one pixel, so
    [Math.sin] and [Math.cos] are called at 0 only, where ECMAScript fixes
    their values. *)
Lemma C6_counterexample :
  Host.run (Host.canvas white) 1 1 1 0 "gothic"
    = Normal (ImageData.Build 1 1 [0; 0; 0; 0])
  /\ Host.run (Host.canvas white) 1 1 0 0.02 "gothic"
    = Normal (ImageData.Build 1 1 white)
  /\ Host.run (Host.canvas white) 1 1 1 0.02 "plaid"
    = Normal (ImageData.Build 1 1 [0; 0; 0; 0])
  /\ Host.run (Host.canvas white) (-1) 1 1 0.02 "gothic"
    = Normal (ImageData.Build 1 1 [0; 0; 0; 0])
  /\ Host.run (Host.canvas white) 1 1 1 0 "gothic" <> Throw "InvalidParameters".
Proof. repeat split; try (vm_compute; reflexivity). vm_compute. discriminate. Qed.

(** C7.  For a pattern string that is none of the four tags the wave value
    is [sin(x f) + cos(y f)], and that is the value the ripple offset of a
    pixel is computed from. *)
Theorem C7_fallback_wave (Math_sin Math_cos : float -> float)
    (pattern : string) (intensity width height x y : Z) (frequency : float) :
  pattern <> "gothic" -> pattern <> "organic" ->
  pattern <> "flame" -> pattern <> "thorns" ->
  waveValue Math_sin Math_cos pattern x y frequency
    = (Math_sin (number x * frequency) + Math_cos (number y * frequency))%float
  /\ rippleOffset Math_sin Math_cos pattern intensity frequency width height x y
    = ((Math_sin (number x * frequency) + Math_cos (number y * frequency))
       * number (intensity - minDistFromEdge width height x y) * 0.3)%float.
Proof.
  intros Hg Ho Hf Ht.
  assert (E : waveValue Math_sin Math_cos pattern x y frequency
    = (Math_sin (number x * frequency) + Math_cos (number y * frequency))%float).
  { unfold waveValue.
    apply String.eqb_neq in Hg, Ho, Hf, Ht. by rewrite Hg, Ho, Hf, Ht. }
  split; [done |]. unfold rippleOffset. by rewrite E.
Qed.

Lemma C7_fallback_wave_witness :
  waveValue Host.sin Host.cos "plaid" 2 3 0.02
    = (Host.sin (number 2 * 0.02) + Host.cos (number 3 * 0.02))%float
  /\ rippleOffset Host.sin Host.cos "plaid" 3 0.02 10 10 2 3
    = ((Host.sin (number 2 * 0.02) + Host.cos (number 3 * 0.02))
       * number (3 - minDistFromEdge 10 10 2 3) * 0.3)%float.
Proof. apply (C7_fallback_wave Host.sin Host.cos "plaid" 3 10 10 2 3 0.02); discriminate. Defined.

(** C8.  On a canvas of positive width and height the filter returns a
    freshly allocated buffer of that width and height, every cell of which
    is initialized.  The buffer is the one [createImageData] allocates,
    [width * height * 4] bytes all 0, passed through the clearing loop and
    then written by the pixel loops, which only read the source array; so
    its width, height and length are those of the input, and every byte of
    it is defined: the source byte at the same index where the pixel is
    kept, and the 0 of the allocation where it is not.  This holds for
    every intensity and frequency, the valid ones included. *)
Theorem C8_fresh_buffer (Math_sin Math_cos : float -> float)
    (ctx : CanvasRenderingContext2D) (width height intensity : Z)
    (frequency : float) (pattern : string) (src : list Z) :
  0 < width -> 0 < height -> holds ctx width height src ->
  exists fresh out,
    createImageData width height = Normal fresh
    /\ ImageData.data fresh = replicate (Z.to_nat (width * height * 4)) 0
    /\ createRippleEffect Math_sin Math_cos ctx width height intensity
         frequency pattern = Normal out
    /\ ImageData.width out = width
    /\ ImageData.height out = height
    /\ Z.of_nat (length (ImageData.data out)) = width * height * 4
    /\ ImageData.data out
       = rippleLoops Math_sin Math_cos pattern intensity frequency width
           height src (clearAlpha (ImageData.data fresh))
    /\ forall j, 0 <= j < width * height * 4 ->
         exists x y v,
           0 <= x < width /\ 0 <= y < height
           /\ (y * width + x) * 4 <= j < (y * width + x) * 4 + 4
           /\ load (ImageData.data out) j = Some v
           /\ Some v
              = if shouldInclude Math_sin Math_cos pattern intensity
                     frequency width height x y
                then load src j else Some 0.
Proof.
  intros Hw Hh Hc.
  pose proof (createRippleEffect_returns Math_sin Math_cos ctx width height
                intensity frequency pattern src Hw Hh Hc) as Hret.
  exists (ImageData.Build width height
            (replicate (Z.to_nat (width * height * 4)) 0)).
  eexists.
  split.
  { unfold createImageData.
    destruct (width =? 0) eqn:Ew; [lia |].
    destruct (height =? 0) eqn:Eh; [lia |].
    simpl. by rewrite !Z.abs_eq by lia. }
  split; [reflexivity |].
  split; [exact Hret |].
  destruct (createRippleEffect_length Math_sin Math_cos ctx width height
              intensity frequency pattern src Hw Hh Hc _ Hret)
    as (Hwd & Hht & Hlen).
  split; [exact Hwd |]. split; [exact Hht |]. split; [exact Hlen |].
  simpl. split; [by rewrite clearAlpha_replicate |].
  intros j Hj.
  destruct (offset_surj width height j Hw Hj) as (x & y & Hx & Hy & Hcov).
  destruct Hc as [_ Hsrc].
  assert (Hnew : length (replicate (Z.to_nat (width * height * 4)) 0)
                 = length src) by (rewrite length_replicate; lia).
  pose proof (rippleLoops_pixel Math_sin Math_cos pattern intensity
                frequency width height src Hsrc _ x y j Hnew Hx Hy Hcov)
    as Hpix.
  rewrite load_replicate in Hpix by lia.
  destruct (load_Some src j ltac:(lia)) as [u Hu].
  exists x, y.
  destruct (shouldInclude Math_sin Math_cos pattern intensity frequency
              width height x y).
  - exists u. rewrite Hpix, Hu. done.
  - exists 0. rewrite Hpix. done.
Qed.

(** On the white image the corner byte 0 is the 0 of the allocation, not
    the 255 of the source. *)
Lemma C8_fresh_buffer_witness :
  exists fresh out,
    createImageData 10 10 = Normal fresh
    /\ ImageData.data fresh = replicate (Z.to_nat (10 * 10 * 4)) 0
    /\ createRippleEffect Host.sin Host.cos (Host.canvas (whites 100)) 10 10
         3 0.02 "gothic" = Normal out
    /\ ImageData.width out = 10
    /\ ImageData.height out = 10
    /\ Z.of_nat (length (ImageData.data out)) = 10 * 10 * 4
    /\ ImageData.data out
       = rippleLoops Host.sin Host.cos "gothic" 3 0.02 10 10 (whites 100)
           (clearAlpha (ImageData.data fresh))
    /\ forall j, 0 <= j < 10 * 10 * 4 ->
         exists x y v,
           0 <= x < 10 /\ 0 <= y < 10
           /\ (y * 10 + x) * 4 <= j < (y * 10 + x) * 4 + 4
           /\ load (ImageData.data out) j = Some v
           /\ Some v
              = if shouldInclude Host.sin Host.cos "gothic" 3 0.02 10 10 x y
                then load (whites 100) j else Some 0.
Proof.
  apply (C8_fresh_buffer Host.sin Host.cos (Host.canvas (whites 100))
           10 10 3 0.02 "gothic" (whites 100));
    [lia | lia | split; reflexivity].
Defined.

(** C9.  Two runs on canvases of the same size with the same parameters
    keep and discard the same coordinates: at each pixel one decision,
    [shouldInclude], which takes no pixel data, settles both outputs. *)
Theorem C9_decision_ignores_pixels (Math_sin Math_cos : float -> float)
    (ctx1 ctx2 : CanvasRenderingContext2D) (width height intensity : Z)
    (frequency : float) (pattern : string) (src1 src2 : list Z) :
  0 < width -> 0 < height ->
  holds ctx1 width height src1 -> holds ctx2 width height src2 ->
  exists out1 out2,
    createRippleEffect Math_sin Math_cos ctx1 width height intensity
      frequency pattern = Normal out1
    /\ createRippleEffect Math_sin Math_cos ctx2 width height intensity
         frequency pattern = Normal out2
    /\ forall x y, 0 <= x < width -> 0 <= y < height ->
       let kept := shouldInclude Math_sin Math_cos pattern intensity
                     frequency width height x y in
       pixelAt (ImageData.data out1) width x y
         = (if kept then pixelAt src1 width x y else transparent)
       /\ pixelAt (ImageData.data out2) width x y
         = (if kept then pixelAt src2 width x y else transparent).
Proof.
  intros Hw Hh Hc1 Hc2.
  do 2 eexists.
  split; [by apply createRippleEffect_returns |].
  split; [by apply createRippleEffect_returns |].
  intros x y Hx Hy kept. split.
  - apply (createRippleEffect_pixel Math_sin Math_cos ctx1 width height
             intensity frequency pattern src1 Hw Hh Hc1); [| done | done].
    by apply createRippleEffect_returns.
  - apply (createRippleEffect_pixel Math_sin Math_cos ctx2 width height
             intensity frequency pattern src2 Hw Hh Hc2); [| done | done].
    by apply createRippleEffect_returns.
Qed.

(** A white image against a transparent black one of the same size. *)
Lemma C9_decision_ignores_pixels_witness :
  exists out1 out2,
    createRippleEffect Host.sin Host.cos (Host.canvas (whites 100)) 10 10 3
      0.02 "gothic" = Normal out1
    /\ createRippleEffect Host.sin Host.cos
         (Host.canvas (replicate 400%nat 0)) 10 10 3 0.02 "gothic"
       = Normal out2
    /\ forall x y, 0 <= x < 10 -> 0 <= y < 10 ->
       let kept := shouldInclude Host.sin Host.cos "gothic" 3 0.02 10 10 x y in
       pixelAt (ImageData.data out1) 10 x y
         = (if kept then pixelAt (whites 100) 10 x y else transparent)
       /\ pixelAt (ImageData.data out2) 10 x y
         = (if kept then pixelAt (replicate 400%nat 0) 10 x y else transparent).
Proof.
  apply (C9_decision_ignores_pixels Host.sin Host.cos
           (Host.canvas (whites 100)) (Host.canvas (replicate 400%nat 0))
           10 10 3 0.02 "gothic" (whites 100) (replicate 400%nat 0));
    [lia | lia | split; reflexivity | split; reflexivity].
Defined.

(** C10.  With [intensity <= 0] no pixel is in the border zone: every pixel
    is kept and the output array is the source array. *)
Theorem C10_nonpositive_intensity_copies (Math_sin Math_cos : float -> float)
    (ctx : CanvasRenderingContext2D) (width height intensity : Z)
    (frequency : float) (pattern : string) (src : list Z) :
  0 < width -> 0 < height -> holds ctx width height src ->
  intensity <= 0 ->
  (forall x y, 0 <= x < width -> 0 <= y < height ->
     2 * intensity <= minDistFromEdge width height x y
     /\ shouldInclude Math_sin Math_cos pattern intensity frequency width
          height x y = true)
  /\ createRippleEffect Math_sin Math_cos ctx width height intensity
       frequency pattern
     = Normal (ImageData.Build width height src).
Proof.
  intros Hw Hh Hc Hi.
  assert (Hkeep : forall x y, 0 <= x < width -> 0 <= y < height ->
     2 * intensity <= minDistFromEdge width height x y
     /\ shouldInclude Math_sin Math_cos pattern intensity frequency width
          height x y = true).
  { intros x y Hx Hy.
    pose proof (minDistFromEdge_nonneg width height x y Hx Hy) as Hd.
    split; [lia |]. unfold shouldInclude.
    assert (E : (minDistFromEdge width height x y <? intensity * 2) = false)
      by (apply Z.ltb_ge; lia).
    by rewrite E. }
  split; [exact Hkeep |].
  rewrite (createRippleEffect_returns Math_sin Math_cos ctx width height
             intensity frequency pattern src Hw Hh Hc).
  f_equal. f_equal.
  destruct Hc as [_ Hlen].
  assert (Hnew : length (replicate (Z.to_nat (width * height * 4)) 0)
                 = length src) by (rewrite length_replicate; lia).
  apply load_ext.
  - by rewrite length_rippleLoops.
  - rewrite length_rippleLoops, Hnew. intros j Hj.
    destruct (offset_surj width height j Hw ltac:(lia)) as (x & y & Hx & Hy & Hcov).
    rewrite (rippleLoops_pixel _ _ _ _ _ _ _ _ Hlen _ x y) by done.
    destruct (Hkeep x y Hx Hy) as [_ ->]. done.
Qed.

Lemma C10_nonpositive_intensity_copies_witness :
  (forall x y, 0 <= x < 10 -> 0 <= y < 10 ->
     2 * 0 <= minDistFromEdge 10 10 x y
     /\ shouldInclude Host.sin Host.cos "gothic" 0 0.02 10 10 x y = true)
  /\ createRippleEffect Host.sin Host.cos (Host.canvas (whites 100)) 10 10 0
       0.02 "gothic"
     = Normal (ImageData.Build 10 10 (whites 100)).
Proof.
  apply (C10_nonpositive_intensity_copies Host.sin Host.cos
           (Host.canvas (whites 100)) 10 10 0 0.02 "gothic" (whites 100));
    [lia | lia | split; reflexivity | lia].
Defined.

(** * Further properties of the filter *)

(** ** The clearing loop (lines 34-36) *)

Lemma load_lt (a : list Z) (i v : Z) :
  load a i = Some v -> 0 <= i < Z.of_nat (length a).
Proof.
  unfold load. destruct (i <? 0) eqn:E; [done |].
  intros H. apply lookup_lt_Some in H. lia.
Qed.

Section Clear.
#[local] Abbreviation clear := (fun (newData : list Z) (k : Z) =>
  store newData (4 * k + 3) (Some 0)).

Lemma length_clear (ks : list Z) (a : list Z) :
  length (foldl clear a ks) = length a.
Proof.
  revert a. induction ks as [| k ks IH]; intros a; [done |].
  simpl. by rewrite IH, length_store.
Qed.

Lemma clear_untouched (ks : list Z) (a : list Z) (j : Z) :
  Forall (fun k => 4 * k + 3 <> j) ks ->
  load (foldl clear a ks) j = load a j.
Proof.
  revert a. induction ks as [| k ks IH]; intros a Hks; [done |].
  apply Forall_cons in Hks as [Hk Hks]. simpl.
  rewrite IH by done. by apply load_store_ne.
Qed.

Lemma clear_settled (ks : list Z) (a : list Z) (j : Z) :
  load a j = Some 0 -> load (foldl clear a ks) j = Some 0.
Proof.
  revert a. induction ks as [| k ks IH]; intros a Hj; [done |].
  simpl. apply IH.
  destruct (decide (4 * k + 3 = j)) as [-> | Hne].
  - apply load_store_eq. by apply load_lt in Hj.
  - by rewrite load_store_ne.
Qed.

Lemma clear_set (ks : list Z) (a : list Z) (k : Z) :
  k ∈ ks -> 0 <= 4 * k + 3 < Z.of_nat (length a) ->
  load (foldl clear a ks) (4 * k + 3) = Some 0.
Proof.
  revert a. induction ks as [| k' ks IH]; intros a Hin Hk.
  - by apply elem_of_nil in Hin.
  - simpl. apply elem_of_cons in Hin as [<- | Hin].
    + apply clear_settled. by apply load_store_eq.
    + apply IH; [done |]. by rewrite length_store.
Qed.
End Clear.

(** X1.  The clearing loop keeps the length of the array, sets every alpha
    byte (index 3 modulo 4) to 0 and leaves every other byte as it was. *)
Theorem clearAlpha_alpha_only (a : list Z) (j : Z) :
  0 <= j < Z.of_nat (length a) ->
  length (clearAlpha a) = length a
  /\ load (clearAlpha a) j = if j mod 4 =? 3 then Some 0 else load a j.
Proof.
  intros Hj. unfold clearAlpha. split; [apply length_clear |].
  destruct (j mod 4 =? 3) eqn:E.
  - apply Z.eqb_eq in E.
    assert (Ej : j = 4 * (j / 4) + 3).
    { pose proof (Z.div_mod j 4 ltac:(lia)). lia. }
    rewrite Ej at 1. apply clear_set; [| lia].
    apply elem_of_seqZ. split; [apply Z.div_pos; lia |].
    apply Z.div_lt_upper_bound; [lia |].
    pose proof (Z.div_mod (Z.of_nat (length a) + 3) 4 ltac:(lia)).
    pose proof (Z.mod_pos_bound (Z.of_nat (length a) + 3) 4 ltac:(lia)).
    lia.
  - apply Z.eqb_neq in E. apply clear_untouched.
    apply Forall_forall. intros k _ Hk. apply E. subst j.
    replace (4 * k + 3) with (3 + k * 4) by lia.
    by rewrite Z.mod_add by lia.
Qed.

Lemma clearAlpha_alpha_only_witness :
  length (clearAlpha [9; 8; 7; 6; 5; 4; 3; 2]) = 8%nat
  /\ load (clearAlpha [9; 8; 7; 6; 5; 4; 3; 2]) 7 = Some 0.
Proof.
  apply (clearAlpha_alpha_only [9; 8; 7; 6; 5; 4; 3; 2] 7). simpl. lia.
Defined.

(** ** The order of the traversal (lines 38-39) *)

(** X2.  The result of the loops does not depend on the order in which the
    pixels are visited: running the loop body over any list that holds
    exactly the pixels of the image, in any order and with repetitions,
    leaves the array the two nested loops leave. *)
Theorem traversal_order_irrelevant (Math_sin Math_cos : float -> float)
    (pattern : string) (intensity : Z) (frequency : float)
    (width height : Z) (data newData : list Z) (ps : list (Z * Z)) :
  0 < width ->
  Z.of_nat (length data) = width * height * 4 ->
  length newData = length data ->
  (forall p, p ∈ ps <-> p ∈ scanOrder width height) ->
  visit Math_sin Math_cos pattern intensity frequency width height data
    newData ps
  = rippleLoops Math_sin Math_cos pattern intensity frequency width height
      data newData.
Proof.
  intros Hw Hlen Hnew Hps. unfold visit.
  assert (Hin : Forall (fun p : Z * Z =>
            0 <= p.1 < width /\ 0 <= p.2 < height) ps).
  { apply Forall_forall. intros [x y] Hp.
    apply Hps in Hp. by apply elem_of_scanOrder in Hp. }
  apply load_ext.
  - by rewrite length_scan, length_rippleLoops.
  - rewrite length_scan. intros j Hj.
    destruct (offset_surj width height j Hw ltac:(lia))
      as (x & y & Hx & Hy & Hcov).
    rewrite (rippleLoops_pixel _ _ _ _ _ _ _ _ Hlen _ x y) by done.
    destruct (shouldInclude Math_sin Math_cos pattern intensity frequency
                width height x y) eqn:Hk.
    + apply (scan_copied _ _ _ _ _ _ _ _ Hlen ps newData (x, y));
        [done | done | | done | done].
      apply Hps. by apply elem_of_scanOrder.
    + apply scan_untouched. apply Forall_forall. intros [x' y'] Hp Hk' Hc.
      apply Hps in Hp. apply elem_of_scanOrder in Hp as [Hx' Hy'].
      simpl in *.
      destruct (offset_inj width x y x' y' j) as [-> ->]; try done.
      congruence.
Qed.

(** Column by column, bottom up, on a 2 x 2 image. *)
Lemma traversal_order_irrelevant_witness :
  visit Host.sin Host.cos "flame" 1 0.02 2 2 (whites 4) (replicate 16%nat 0)
    [(1, 1); (1, 0); (0, 1); (0, 0); (1, 1)]
  = rippleLoops Host.sin Host.cos "flame" 1 0.02 2 2 (whites 4)
      (replicate 16%nat 0).
Proof.
  apply (traversal_order_irrelevant Host.sin Host.cos "flame" 1 0.02 2 2
           (whites 4) (replicate 16%nat 0));
    [lia | reflexivity | reflexivity |].
  intros [x y]. rewrite elem_of_scanOrder, !elem_of_cons, elem_of_nil.
  split.
  - intros [H | [H | [H | [H | [H | []]]]]]; injection H as -> ->; lia.
  - intros [Hx Hy].
    assert (Hc : (x = 0 \/ x = 1) /\ (y = 0 \/ y = 1)) by lia.
    destruct Hc as [[-> | ->] [-> | ->]]; auto 6.
Defined.

(** ** Running the filter on its own output *)

(** X3.  The filter is idempotent: on a canvas that holds the output of a
    run, a second run with the same parameters returns that output again. *)
Theorem filter_idempotent (Math_sin Math_cos : float -> float)
    (ctx ctx' : CanvasRenderingContext2D) (width height intensity : Z)
    (frequency : float) (pattern : string) (src : list Z)
    (out : ImageData.t) :
  0 < width -> 0 < height -> holds ctx width height src ->
  createRippleEffect Math_sin Math_cos ctx width height intensity frequency
    pattern = Normal out ->
  holds ctx' width height (ImageData.data out) ->
  createRippleEffect Math_sin Math_cos ctx' width height intensity frequency
    pattern = Normal out.
Proof.
  intros Hw Hh Hc Hrun Hc'.
  rewrite (createRippleEffect_returns Math_sin Math_cos ctx width height
             intensity frequency pattern src Hw Hh Hc) in Hrun.
  injection Hrun as <-. simpl in Hc'.
  rewrite (createRippleEffect_returns Math_sin Math_cos ctx' width height
             intensity frequency pattern _ Hw Hh Hc').
  f_equal. f_equal.
  destruct Hc as [_ Hlen]. destruct Hc' as [_ Hlen'].
  set (zeros := replicate (Z.to_nat (width * height * 4)) 0) in *.
  set (once := rippleLoops Math_sin Math_cos pattern intensity frequency
                 width height src zeros) in *.
  assert (Hz : length zeros = length src)
    by (unfold zeros; rewrite length_replicate; lia).
  assert (Ho : length once = length src)
    by (unfold once; by rewrite length_rippleLoops).
  apply load_ext.
  - rewrite length_rippleLoops. congruence.
  - rewrite length_rippleLoops, Hz. intros j Hj.
    destruct (offset_surj width height j Hw ltac:(lia))
      as (x & y & Hx & Hy & Hcov).
    assert (Honce : load once j
      = if shouldInclude Math_sin Math_cos pattern intensity frequency width
             height x y
        then load src j else load zeros j)
      by (by apply rippleLoops_pixel).
    rewrite (rippleLoops_pixel _ _ _ _ _ _ _ _ Hlen' _ x y)
      by first [congruence | done].
    rewrite Honce.
    by destruct (shouldInclude Math_sin Math_cos pattern intensity frequency
                   width height x y).
Qed.

Lemma filter_idempotent_witness :
  createRippleEffect Host.sin Host.cos
    (Host.canvas
       (rippleLoops Host.sin Host.cos "gothic" 3 0.02 10 10 (whites 100)
          (replicate 400%nat 0)))
    10 10 3 0.02 "gothic"
  = Normal
      (ImageData.Build 10 10
         (rippleLoops Host.sin Host.cos "gothic" 3 0.02 10 10 (whites 100)
            (replicate 400%nat 0))).
Proof.
  apply (filter_idempotent Host.sin Host.cos (Host.canvas (whites 100)) _
           10 10 3 0.02 "gothic" (whites 100));
    [lia | lia | split; reflexivity | reflexivity
    | split; vm_compute; reflexivity].
Defined.

(** ** Bytes in, bytes out *)

(** X4.  If every byte of the source array is in 0..255, so is every byte
    of the output array. *)
Theorem output_bytes (Math_sin Math_cos : float -> float)
    (ctx : CanvasRenderingContext2D) (width height intensity : Z)
    (frequency : float) (pattern : string) (src : list Z) :
  0 < width -> 0 < height -> holds ctx width height src ->
  bytes src ->
  exists out,
    createRippleEffect Math_sin Math_cos ctx width height intensity frequency
      pattern = Normal out
    /\ bytes (ImageData.data out).
Proof.
  intros Hw Hh Hc Hsrc.
  eexists. split; [by apply createRippleEffect_returns |]. simpl.
  destruct Hc as [_ Hlen].
  set (zeros := replicate (Z.to_nat (width * height * 4)) 0).
  assert (Hz : length zeros = length src)
    by (unfold zeros; rewrite length_replicate; lia).
  apply Forall_lookup. intros n b Hn.
  pose proof (lookup_lt_Some _ _ _ Hn) as Hlt.
  rewrite length_rippleLoops in Hlt.
  assert (Hload : load (rippleLoops Math_sin Math_cos pattern intensity
                          frequency width height src zeros) (Z.of_nat n)
                  = Some b).
  { unfold load. destruct (Z.of_nat n <? 0) eqn:E; [lia |].
    by rewrite Nat2Z.id. }
  destruct (offset_surj width height (Z.of_nat n) Hw ltac:(lia))
    as (x & y & Hx & Hy & Hcov).
  rewrite (rippleLoops_pixel _ _ _ _ _ _ _ _ Hlen _ x y) in Hload by done.
  destruct (shouldInclude Math_sin Math_cos pattern intensity frequency
              width height x y).
  - unfold load in Hload. destruct (Z.of_nat n <? 0) eqn:E; [lia |].
    rewrite Nat2Z.id in Hload.
    exact (Forall_lookup_1 _ _ _ _ Hsrc Hload).
  - unfold zeros in Hload. rewrite load_replicate in Hload by lia.
    injection Hload as <-. lia.
Qed.

Lemma bytes_whites (n : nat) : bytes (whites n).
Proof.
  unfold bytes, whites. induction n as [| n IH]; simpl; [constructor |].
  repeat (constructor; [lia |]). exact IH.
Qed.

Lemma output_bytes_witness :
  exists out,
    createRippleEffect Host.sin Host.cos (Host.canvas (whites 100)) 10 10 3
      0.02 "thorns" = Normal out
    /\ bytes (ImageData.data out).
Proof.
  apply (output_bytes Host.sin Host.cos (Host.canvas (whites 100)) 10 10 3
           0.02 "thorns" (whites 100));
    [lia | lia | split; reflexivity |].
  apply bytes_whites.
Defined.

(** ** When the whole image is border zone *)

(** X5.  The interior shortcut of line 50 is never taken, that is every
    pixel of the image is in the border zone, exactly when the width or the
    height is less than four times the intensity. *)
Theorem border_zone_covers_image (width height intensity : Z) :
  0 < width -> 0 < height ->
  (forall x y, 0 <= x < width -> 0 <= y < height ->
     minDistFromEdge width height x y < intensity * 2)
  <-> (width < 4 * intensity \/ height < 4 * intensity).
Proof.
  intros Hw Hh. split.
  - intros Hall.
    destruct (decide (width < 4 * intensity \/ height < 4 * intensity))
      as [Hyes | Hno]; [done | exfalso].
    destruct (decide (intensity <= 0)) as [Hi | Hi].
    + specialize (Hall 0 0 ltac:(lia) ltac:(lia)).
      pose proof (minDistFromEdge_nonneg width height 0 0 ltac:(lia)
                    ltac:(lia)). lia.
    + specialize (Hall (2 * intensity) (2 * intensity) ltac:(lia) ltac:(lia)).
      revert Hall.
      unfold minDistFromEdge, Math_min4, distFromLeft, distFromRight,
        distFromTop, distFromBottom. lia.
  - intros Hsmall x y Hx Hy.
    unfold minDistFromEdge, Math_min4, distFromLeft, distFromRight,
      distFromTop, distFromBottom. lia.
Qed.

(** A 100 x 30 image at intensity 8 has no interior; at intensity 7 the
    pixel (14, 14) is interior. *)
Lemma border_zone_covers_image_witness :
  (forall x y, 0 <= x < 100 -> 0 <= y < 30 ->
     minDistFromEdge 100 30 x y < 8 * 2)
  <-> (100 < 4 * 8 \/ 30 < 4 * 8).
Proof. apply (border_zone_covers_image 100 30 8); lia. Defined.

(** ** The bounds guard of line 88 *)

Lemma copyPixel_short (data newData : list Z) (width x y : Z) :
  Z.of_nat (length data) <= (y * width + x) * 4 ->
  copyPixel data newData width x y = newData.
Proof.
  intros Hshort. unfold copyPixel.
  assert (E : ((y * width + x) * 4 <? Z.of_nat (length data)) = false)
    by (apply Z.ltb_ge; lia).
  rewrite E. by rewrite andb_false_r.
Qed.

(** X6.  A pixel whose first byte lies at or beyond the end of the source
    array is never copied: whatever the decision for it, its four output
    bytes are left as they were before the loops. *)
Theorem pixel_beyond_source_not_written (Math_sin Math_cos : float -> float)
    (pattern : string) (intensity : Z) (frequency : float)
    (width height : Z) (data newData : list Z) (x y j : Z) :
  0 <= x < width -> 0 <= y < height ->
  Z.of_nat (length data) <= (y * width + x) * 4 ->
  (y * width + x) * 4 <= j < (y * width + x) * 4 + 4 ->
  load (rippleLoops Math_sin Math_cos pattern intensity frequency width
          height data newData) j
  = load newData j.
Proof.
  intros Hx Hy Hshort Hj. rewrite rippleLoops_scan.
  assert (Hall : Forall (fun p : Z * Z =>
            0 <= p.1 < width /\ 0 <= p.2 < height)
            (scanOrder width height)).
  { apply Forall_forall. intros [x' y'] Hin.
    by apply elem_of_scanOrder in Hin. }
  revert newData Hall.
  induction (scanOrder width height) as [| p ps IH]; intros newData Hall;
    [done |].
  apply Forall_cons in Hall as [[Hx' Hy'] Hall]. simpl.
  rewrite IH by done. unfold pixelStep.
  destruct (shouldInclude Math_sin Math_cos pattern intensity frequency
              width height p.1 p.2); [| done].
  destruct (decide ((p.2 * width + p.1) * 4 <= j
                    < (p.2 * width + p.1) * 4 + 4)) as [Hc | Hc].
  - destruct (offset_inj width x y p.1 p.2 j) as [E1 E2]; try done.
    rewrite <- E1, <- E2. by rewrite copyPixel_short.
  - by apply load_copyPixel_out.
Qed.

(** A source array that holds one pixel only, for a 2 x 1 image. *)
Lemma pixel_beyond_source_not_written_witness :
  load (rippleLoops Host.sin Host.cos "gothic" 0 0.02 2 1 white
          (replicate 8%nat 0)) 7
  = load (replicate 8%nat 0) 7.
Proof.
  apply (pixel_beyond_source_not_written Host.sin Host.cos "gothic" 0 0.02
           2 1 white (replicate 8%nat 0) 1 0 7); simpl; lia.
Defined.

(** ** The top-left corner *)

Section Origin.
Variables Math_sin Math_cos : float -> float.
Variable frequency : float.
(** What ECMAScript fixes for [Math.sin] and [Math.cos] at +0, and a
    frequency whose product with 0 is +0: a finite frequency that is not
    negative. *)
Hypothesis sin_0 : Math_sin 0%float = 0%float.
Hypothesis cos_0 : Math_cos 0%float = 1%float.
Hypothesis frequency_0 : (number 0 * frequency)%float = 0%float.

(** At (0, 0) every argument of a sine or cosine is +0, and the wave value
    is 0 (gothic, flame, thorns) or 1 (organic and the fallback). *)
Lemma waveValue_origin (pattern : string) :
  waveValue Math_sin Math_cos pattern 0 0 frequency = 0%float
  \/ waveValue Math_sin Math_cos pattern 0 0 frequency = 1%float.
Proof.
  unfold waveValue. cbv zeta.
  change (number (0 + 0)) with (number 0).
  rewrite !frequency_0.
  change (0 * 1.3)%float with 0%float.
  change (0 * 0.7)%float with 0%float.
  change (0 * 0.8)%float with 0%float.
  change (0 * 1.2)%float with 0%float.
  change (0 * 0.9)%float with 0%float.
  change (0 * 0.5)%float with 0%float.
  change (0 * 2)%float with 0%float.
  change (0 * 0.3)%float with 0%float.
  change (0 * 1.5)%float with 0%float.
  change (0 * 3)%float with 0%float.
  rewrite !sin_0, !cos_0.
  destruct (String.eqb pattern "gothic"); [left; reflexivity |].
  destruct (String.eqb pattern "organic"); [right; reflexivity |].
  destruct (String.eqb pattern "flame"); [left; reflexivity |].
  destruct (String.eqb pattern "thorns"); [left; reflexivity |].
  right; reflexivity.
Qed.
End Origin.

(** With wave value 0 or 1 at distance 0, the cutoff is below
    [intensity * 0.8] for each intensity from 1 to 50. *)
Lemma cutoff_origin (intensity : Z) :
  1 <= intensity <= 50 ->
  (number 0 + 0 * number (intensity - 0) * 0.3 <? number intensity * 0.8)%float
    = true
  /\ (number 0 + 1 * number (intensity - 0) * 0.3 <? number intensity * 0.8)%float
    = true.
Proof.
  intros Hi.
  assert (Hall : Forall (fun i =>
    (number 0 + 0 * number (i - 0) * 0.3 <? number i * 0.8)%float = true
    /\ (number 0 + 1 * number (i - 0) * 0.3 <? number i * 0.8)%float = true)
    (seqZ 1 50)).
  { vm_compute. repeat constructor. }
  rewrite Forall_forall in Hall. apply Hall. apply elem_of_seqZ. lia.
Qed.

(** X7.  Whatever the image, the pattern string and the frequency (finite
    and not negative), for each intensity from 1 to 50, the range input's 5
    to 50 included, the top-left pixel of the output is transparent. *)
Theorem corner_pixel_discarded (Math_sin Math_cos : float -> float)
    (ctx : CanvasRenderingContext2D) (width height intensity : Z)
    (frequency : float) (pattern : string) (src : list Z) :
  Math_sin 0%float = 0%float -> Math_cos 0%float = 1%float ->
  (number 0 * frequency)%float = 0%float ->
  0 < width -> 0 < height -> holds ctx width height src ->
  1 <= intensity <= 50 ->
  exists out,
    createRippleEffect Math_sin Math_cos ctx width height intensity frequency
      pattern = Normal out
    /\ pixelAt (ImageData.data out) width 0 0 = transparent.
Proof.
  intros Hs Hc Hf Hw Hh Hcan Hi.
  eexists. split; [by apply createRippleEffect_returns |].
  rewrite (createRippleEffect_pixel Math_sin Math_cos ctx width height
             intensity frequency pattern src Hw Hh Hcan _ 0 0)
    by first [by apply createRippleEffect_returns | lia].
  assert (Hd : minDistFromEdge width height 0 0 = 0).
  { unfold minDistFromEdge, Math_min4, distFromLeft, distFromRight,
      distFromTop, distFromBottom. lia. }
  unfold shouldInclude, cutoffThreshold, rippleOffset. rewrite Hd.
  assert (Hz : (0 <? intensity * 2) = true) by (apply Z.ltb_lt; lia).
  rewrite Hz.
  destruct (cutoff_origin intensity Hi) as [H0 H1].
  destruct (waveValue_origin Math_sin Math_cos frequency Hs Hc Hf pattern)
    as [-> | ->].
  - by rewrite H0.
  - by rewrite H1.
Qed.

Lemma corner_pixel_discarded_witness :
  exists out,
    createRippleEffect Host.sin Host.cos (Host.canvas (whites 100)) 10 10 20
      0.02 "organic" = Normal out
    /\ pixelAt (ImageData.data out) 10 0 0 = transparent.
Proof.
  apply (corner_pixel_discarded Host.sin Host.cos (Host.canvas (whites 100))
           10 10 20 0.02 "organic" (whites 100));
    [reflexivity | reflexivity | reflexivity | lia | lia
    | split; reflexivity | lia].
Defined.

(** * The caller *)

Lemma PlainDOM_laws : DOMLaws PlainDOM.dom.
Proof.
  split; simpl; try done.
  - intros c x y w h. by destruct (PlainDOM.whole c x y w h).
  - intros c i x y. by destruct (PlainDOM.whole c x y _ _).
  - intros c d x y. by destruct (PlainDOM.whole c x y _ _).
  - intros c Hw Hh.
    exists (resize (Z.to_nat (PlainDOM.cw c * PlainDOM.ch c * 4)) 0
              (PlainDOM.bitmap c)).
    split; simpl.
    + destruct (PlainDOM.cw c =? 0) eqn:Ew; [lia |].
      destruct (PlainDOM.ch c =? 0) eqn:Eh; [lia |].
      simpl. by rewrite !Z.abs_eq by lia.
    + rewrite length_resize. lia.
Qed.

Section Caller.
Context {D : DOM}.
Hypothesis laws : DOMLaws D.

(** The canvas [processImage] hands to the filter has the size of the
    image. *)
Lemma drawn_size (canvas : Canvas) (image : Image) :
  0 <= image_width image -> 0 <= image_height image ->
  canvas_width (App.drawn canvas image) = image_width image
  /\ canvas_height (App.drawn canvas image) = image_height image.
Proof.
  intros Hw Hh. unfold App.drawn.
  destruct (drawImage_size D laws
    (clearRect (set_height (set_width canvas (image_width image))
                  (image_height image)) 0 0
       (canvas_width (set_height (set_width canvas (image_width image))
                        (image_height image)))
       (canvas_height (set_height (set_width canvas (image_width image))
                         (image_height image))))
    image 0 0) as [-> ->].
  destruct (clearRect_size D laws
    (set_height (set_width canvas (image_width image)) (image_height image))
    0 0
    (canvas_width (set_height (set_width canvas (image_width image))
                     (image_height image)))
    (canvas_height (set_height (set_width canvas (image_width image))
                      (image_height image)))) as [-> ->].
  rewrite (height_width D laws), (width_set D laws) by done.
  rewrite (height_set D laws) by done. done.
Qed.
End Caller.

(** X8.  With an image of positive width and height loaded and a mounted
    canvas that has a 2D context, [processImage] completes normally: it
    runs the filter on the canvas the image was drawn on, at the size of
    the image and with the settings of the state, puts the filter's output
    on the canvas, which keeps the size of the image, stores the data URL
    of that canvas and ends with [isProcessing] false.  The image and the
    settings are left as they were. *)
Theorem processImage_completes {D : DOM} (Math_sin Math_cos : float -> float)
    (w : App.World) (image : Image) (canvas : Canvas) :
  DOMLaws D ->
  App.image (App.state w) = Some image ->
  App.canvasRef w = Some canvas ->
  has_2d canvas = true ->
  0 < image_width image -> 0 < image_height image ->
  exists out canvas',
    createRippleEffect Math_sin Math_cos (context (App.drawn canvas image))
      (image_width image) (image_height image)
      (App.rippleIntensity (App.state w)) (App.rippleFrequency (App.state w))
      (App.wavePattern (App.state w)) = Normal out
    /\ ImageData.width out = image_width image
    /\ ImageData.height out = image_height image
    /\ canvas'
       = putImageData
           (clearRect (App.drawn canvas image) 0 0 (image_width image)
              (image_height image)) out 0 0
    /\ canvas_width canvas' = image_width image
    /\ canvas_height canvas' = image_height image
    /\ App.processImage Math_sin Math_cos w
       = ({| App.state :=
               {| App.image := Some image;
                  App.processedImage := Some (toDataURL canvas' "image/png");
                  App.rippleIntensity := App.rippleIntensity (App.state w);
                  App.rippleFrequency := App.rippleFrequency (App.state w);
                  App.wavePattern := App.wavePattern (App.state w);
                  App.isProcessing := false |};
             App.canvasRef := Some canvas' |}, Normal tt).
Proof.
  intros L Himg Hcan H2d Hw Hh.
  destruct (drawn_size L canvas image ltac:(lia) ltac:(lia)) as [Ew Eh].
  destruct (getImageData_whole D L (App.drawn canvas image)
              ltac:(lia) ltac:(lia)) as [d Hd].
  rewrite Ew, Eh in Hd.
  pose proof (createRippleEffect_returns Math_sin Math_cos
                (context (App.drawn canvas image)) (image_width image)
                (image_height image) (App.rippleIntensity (App.state w))
                (App.rippleFrequency (App.state w))
                (App.wavePattern (App.state w)) d Hw Hh Hd) as Hrun.
  eexists. eexists.
  split; [exact Hrun |].
  split; [reflexivity |]. split; [reflexivity |].
  split; [reflexivity |].
  destruct (putImageData_size D L
    (clearRect (App.drawn canvas image) 0 0 (image_width image)
       (image_height image))
    (ImageData.Build (image_width image) (image_height image)
       (rippleLoops Math_sin Math_cos (App.wavePattern (App.state w))
          (App.rippleIntensity (App.state w))
          (App.rippleFrequency (App.state w)) (image_width image)
          (image_height image) d
          (replicate (Z.to_nat (image_width image * image_height image * 4))
             0))) 0 0) as [Pw Ph].
  destruct (clearRect_size D L (App.drawn canvas image) 0 0
              (image_width image) (image_height image)) as [Cw Ch].
  split; [congruence |]. split; [congruence |].
  unfold App.processImage. rewrite Himg, Hcan. cbv zeta. rewrite H2d.
  fold (App.drawn canvas image).
  change (App.rippleIntensity (App.setIsProcessing true (App.state w)))
    with (App.rippleIntensity (App.state w)).
  change (App.rippleFrequency (App.setIsProcessing true (App.state w)))
    with (App.rippleFrequency (App.state w)).
  change (App.wavePattern (App.setIsProcessing true (App.state w)))
    with (App.wavePattern (App.state w)).
  rewrite Ew, Eh, Hrun.
  unfold App.setIsProcessing, App.setProcessedImage. simpl.
  by rewrite Himg.
Qed.

(** X9.  With an image of zero width or zero height loaded, [processImage]
    does not complete: the filter's call of the canvas throws, the
    exception leaves [processImage], and the state is left with
    [isProcessing] true and [processedImage] as it was. *)
Theorem processImage_zero_size_throws {D : DOM}
    (Math_sin Math_cos : float -> float)
    (w : App.World) (image : Image) (canvas : Canvas) :
  DOMLaws D ->
  App.image (App.state w) = Some image ->
  App.canvasRef w = Some canvas ->
  has_2d canvas = true ->
  0 <= image_width image -> 0 <= image_height image ->
  image_width image = 0 \/ image_height image = 0 ->
  exists exn,
    App.processImage Math_sin Math_cos w
    = ({| App.state := App.setIsProcessing true (App.state w);
          App.canvasRef := Some (App.drawn canvas image) |}, Throw exn).
Proof.
  intros L Himg Hcan H2d Hw Hh Hzero.
  destruct (drawn_size L canvas image Hw Hh) as [Ew Eh].
  unfold App.processImage. rewrite Himg, Hcan. cbv zeta. rewrite H2d.
  fold (App.drawn canvas image). rewrite Ew, Eh.
  unfold createRippleEffect.
  destruct (getImageData (context (App.drawn canvas image)) 0 0
              (image_width image) (image_height image)) as [d | exn].
  - exists "IndexSizeError". simpl. unfold createImageData.
    assert (E : (image_width image =? 0) || (image_height image =? 0) = true).
    { apply orb_true_iff. destruct Hzero as [-> | ->]; auto. }
    by rewrite E.
  - by exists exn.
Qed.

(** A 2 x 2 white image on the plain DOM. *)
Lemma processImage_completes_witness :
  exists w',
    App.processImage Host.sin Host.cos
      (PlainDOM.loaded (ImageData.Build 2 2 (whites 4)))
    = (w', Normal tt)
    /\ App.isProcessing (App.state w') = false
    /\ App.processedImage (App.state w') = Some "data:image/png".
Proof.
  destruct (processImage_completes (D := PlainDOM.dom) Host.sin Host.cos
              (PlainDOM.loaded (ImageData.Build 2 2 (whites 4)))
              (ImageData.Build 2 2 (whites 4)) PlainDOM.blank)
    as (out & canvas' & _ & _ & _ & _ & _ & _ & Hrun);
    [apply PlainDOM_laws | reflexivity | reflexivity | reflexivity
    | simpl; lia | simpl; lia |].
  rewrite Hrun. eexists. split; [reflexivity |]. split; reflexivity.
Defined.

(** An image of width 0 on the plain DOM. *)
Lemma processImage_zero_size_throws_witness :
  exists exn,
    App.processImage Host.sin Host.cos
      (PlainDOM.loaded (ImageData.Build 0 5 []))
    = ({| App.state :=
            App.setIsProcessing true
              (App.state (PlainDOM.loaded (ImageData.Build 0 5 [])));
          App.canvasRef :=
            Some (App.drawn PlainDOM.blank (ImageData.Build 0 5 [])) |},
       Throw exn).
Proof.
  apply (processImage_zero_size_throws (D := PlainDOM.dom) Host.sin Host.cos
           (PlainDOM.loaded (ImageData.Build 0 5 []))
           (ImageData.Build 0 5 []) PlainDOM.blank);
    [apply PlainDOM_laws | reflexivity | reflexivity | reflexivity
    | simpl; lia | simpl; lia | left; reflexivity].
Defined.

(** * The loops as a traversal *)


Lemma scanOrder_empty (width height : Z) :
  width <= 0 \/ height <= 0 -> scanOrder width height = [].
Proof.
  intros Hsmall. apply elem_of_nil_inv. intros [x y] Hin.
  apply elem_of_scanOrder in Hin. lia.
Qed.



(** X11.  With a negative width or height (and neither zero) on a canvas
    that returns the source pixels, the loops do not run and the filter
    returns a fully transparent image of the magnitude of the width and
    height. *)
Theorem negative_size_transparent (Math_sin Math_cos : float -> float)
    (ctx : CanvasRenderingContext2D) (width height intensity : Z)
    (frequency : float) (pattern : string) (imageData : ImageData.t) :
  getImageData ctx 0 0 width height = Normal imageData ->
  width <> 0 -> height <> 0 -> width < 0 \/ height < 0 ->
  createRippleEffect Math_sin Math_cos ctx width height intensity frequency
    pattern
  = Normal
      (ImageData.Build (Z.abs width) (Z.abs height)
         (replicate (Z.to_nat (Z.abs width * Z.abs height * 4)) 0)).
Proof.
  intros Hget Hw Hh Hneg. unfold createRippleEffect. rewrite Hget. simpl.
  unfold createImageData.
  apply Z.eqb_neq in Hw, Hh. rewrite Hw, Hh. simpl.
  rewrite clearAlpha_replicate, rippleLoops_scan.
  rewrite scanOrder_empty by lia. done.
Qed.

Lemma negative_size_transparent_witness :
  createRippleEffect Host.sin Host.cos (Host.canvas (whites 6)) (-3) 2 20
    0.02 "gothic"
  = Normal (ImageData.Build 3 2 (replicate 24%nat 0)).
Proof.
  apply (negative_size_transparent Host.sin Host.cos (Host.canvas (whites 6))
           (-3) 2 20 0.02 "gothic" (ImageData.Build 3 2 (whites 6)));
    [reflexivity | lia | lia | lia].
Defined.
